(** * fumin/proxy: the request dispatch and status capture of cmd/server

    A shallow embedding of [cmd/server/main.go]: the wrapper
    [responseWriter], the handler [reverseProxy.ServeHTTP], the helper
    [redirectByHost] and the plaintext handler of [serveToTLS].

    Go maps are [gmap string string]; [http.ResponseWriter], a Go
    interface, is a type class; the handlers, which mutate the writer and
    the request they are handed, return the new writer and request.
    Module [Shared] embeds the handler a second time, on a heap that holds
    the two tables as the map objects all requests share. *)

From stdpp Require Import base decidable option list strings gmap pretty.
From Stdlib Require Import ZArith Lia Ascii String.

Local Open Scope Z_scope.
Local Open Scope string_scope.

(** ** net/url and net/http data *)

(** [url.Userinfo]. *)
Record Userinfo := mkUserinfo {
  username : string;
  password : string;
  passwordSet : bool
}.

(** [url.URL], field by field. *)
Record URL := mkURL {
  Scheme : string;
  Opaque : string;
  User : option Userinfo;
  UHost : string;          (* URL.Host *)
  Path : string;
  RawPath : string;
  OmitHost : bool;
  ForceQuery : bool;
  RawQuery : string;
  Fragment : string;
  RawFragment : string
}.

(** The two assignments the program makes to a URL. *)
Definition set_Scheme (s : string) (u : URL) : URL :=
  mkURL s (Opaque u) (User u) (UHost u) (Path u) (RawPath u) (OmitHost u)
        (ForceQuery u) (RawQuery u) (Fragment u) (RawFragment u).

Definition set_Host (h : string) (u : URL) : URL :=
  mkURL (Scheme u) (Opaque u) (User u) h (Path u) (RawPath u) (OmitHost u)
        (ForceQuery u) (RawQuery u) (Fragment u) (RawFragment u).

(** The part of [http.Request] the program reads or writes. [rURL] is the
    URL the field [r.URL] points to: an assignment [r.URL.Host = h] is
    visible to every later reader of the request. *)
Record Request := mkRequest {
  Method : string;
  Host : string;
  rURL : URL
}.

Definition with_URL (u : URL) (r : Request) : Request :=
  mkRequest (Method r) (Host r) u.

(** [http.Header] is [map[string][]string]. The program only uses
    [Set], with keys already in canonical form. *)
Abbreviation Header := (gmap string (list string)).

Definition Header_Set (k v : string) (h : Header) : Header := <[k := [v]]> h.

(** [Header.Get]: the first value of the key, or the empty string. *)
Definition Header_Get (k : string) (h : Header) : string :=
  match h !! k with
  | Some (v :: _) => v
  | _ => EmptyString
  end.

Definition StatusOK : Z := 200.
Definition StatusFound : Z := 302.

(** ** http.ResponseWriter *)

(** The interface: [Header()] (read here through [GetHeader], written
    through [SetHeader], since the map it returns is shared with the
    writer), [WriteHeader] and [Write]. *)
Class ResponseWriter (W : Type) := {
  GetHeader : W -> Header;
  SetHeader : string -> string -> W -> W;
  WriteHeader : Z -> W -> W;
  Write : string -> W -> W
}.

(** The characters that a Go string literal writes [\n] and [\dq]. *)
Definition newline : string := String "010"%char EmptyString.
Definition dquote : string := String "034"%char EmptyString.

(** [fmt.Fprintln(w, s)]: one [Write] of [s] and a newline. *)
Definition Fprintln `{ResponseWriter W} (s : string) (w : W) : W :=
  Write (s +:+ newline) w.

(** The writer the server hands to a handler, as net/http documents it
    (and as [httptest.ResponseRecorder] records it): the first
    [WriteHeader] fixes the status and the header sent with it, later ones
    are ignored; a [Write] before any [WriteHeader] sends [StatusOK]
    first. [sent] is [None] until the header has gone out. *)
Record response := mkResponse {
  header : Header;
  sent : option (Z * Header);
  body : string
}.

Definition newResponse : response := mkResponse ∅ None EmptyString.

Definition response_WriteHeader (code : Z) (w : response) : response :=
  match sent w with
  | Some _ => w
  | None => mkResponse (header w) (Some (code, header w)) (body w)
  end.

Definition response_Write (data : string) (w : response) : response :=
  let w := response_WriteHeader StatusOK w in
  mkResponse (header w) (sent w) (body w +:+ data).

#[export] Instance response_ResponseWriter : ResponseWriter response := {
  GetHeader := header;
  SetHeader k v w := mkResponse (Header_Set k v (header w)) (sent w) (body w);
  WriteHeader := response_WriteHeader;
  Write := response_Write
}.

(** What the client has received. *)
Definition sent_status (w : response) : option Z := fst <$> sent w.
Definition sent_header (k : string) (w : response) : option (list string) :=
  sent w ≫= λ p, snd p !! k.

(** ** responseWriter (main.go 63-72) *)

(** [type responseWriter struct { status int; http.ResponseWriter }].
    The composite literal [&responseWriter{ResponseWriter: w}] leaves
    [status] at the zero value of [int]. *)
Record responseWriter (W : Type) := mkResponseWriter {
  status : Z;
  inner : W               (* the embedded http.ResponseWriter *)
}.
Arguments mkResponseWriter {W} _ _.
Arguments status {W} _.
Arguments inner {W} _.

Definition wrap {W} (w : W) : responseWriter W := mkResponseWriter 0 w.

(** [func (w *responseWriter) WriteHeader(status int)]. *)
Definition responseWriter_WriteHeader `{ResponseWriter W}
    (st : Z) (w : responseWriter W) : responseWriter W :=
  mkResponseWriter st (WriteHeader st (inner w)).

(** [Header] and [Write] are promoted from the embedded field: they reach
    the inner writer directly and do not pass through the method above. *)
#[export] Instance responseWriter_ResponseWriter `{ResponseWriter W} :
    ResponseWriter (responseWriter W) := {
  GetHeader w := GetHeader (inner w);
  SetHeader k v w := mkResponseWriter (status w) (SetHeader k v (inner w));
  WriteHeader := responseWriter_WriteHeader;
  Write data w := mkResponseWriter (status w) (Write data (inner w))
}.

(** ** html.EscapeString *)

(** The five replacements of [html.EscapeString]: ampersand, apostrophe,
    less-than, greater-than and double quote. *)
Definition escape_char (c : ascii) : string :=
  if Ascii.eqb c "038" then "&amp;"
  else if Ascii.eqb c "039" then "&#39;"
  else if Ascii.eqb c "060" then "&lt;"
  else if Ascii.eqb c "062" then "&gt;"
  else if Ascii.eqb c "034" then "&#34;"
  else String c EmptyString.

Fixpoint EscapeString (s : string) : string :=
  match s with
  | EmptyString => EmptyString
  | String c s' => escape_char c +:+ EscapeString s'
  end.

(** ** hexEscapeNonASCII of net/http *)

(** [http.Redirect] writes every byte from [utf8.RuneSelf] (0x80) on as a
    percent sign and the byte in base 16, lower case, as
    [strconv.AppendInt] prints it; the other bytes stay. *)
Definition hex_digit (n : N) : ascii :=
  ascii_of_N (if (n <? 10)%N then 48 + n else 87 + n)%N.

Definition hexEscape_byte (c : ascii) : string :=
  let n := N_of_ascii c in
  if (128 <=? n)%N
  then String "%" (String (hex_digit (n / 16)) (String (hex_digit (n mod 16)) EmptyString))
  else String c EmptyString.

Fixpoint http_hexEscapeNonASCII (s : string) : string :=
  match s with
  | EmptyString => EmptyString
  | String c s' => hexEscape_byte c +:+ http_hexEscapeNonASCII s'
  end.

(** ** The environment of the program *)

(** A call on a response writer. *)
Inductive call :=
  | CallSetHeader (k v : string)
  | CallWriteHeader (code : Z)
  | CallWrite (data : string).

Definition perform `{ResponseWriter W} (c : call) (w : W) : W :=
  match c with
  | CallSetHeader k v => SetHeader k v w
  | CallWriteHeader code => WriteHeader code w
  | CallWrite data => Write data w
  end.

Definition perform_all `{ResponseWriter W} (cs : list call) (w : W) : W :=
  foldl (λ w c, perform c w) w cs.

(** The library functions the program calls but does not define, and the
    network behind the forwarding primitive.

    - [URL_String] and [EscapedPath] are the methods [String] and
      [EscapedPath] of [url.URL], [StatusText] is [http.StatusText];
    - [isRelative], [resolve] and [hexEscapeNonASCII] are the three steps
      of [http.Redirect] on its url argument: whether it parses without
      scheme and host, the path made absolute against the request when it
      does, and the escaping of the header value;
    - [forward] gives what [httputil.ReverseProxy] does to the writer it
      is handed for an outgoing request, whatever the backend answers or
      fails to: any list of calls. *)
Class Env := {
  URL_String : URL -> string;
  EscapedPath : URL -> string;
  StatusText : Z -> string;
  isRelative : string -> bool;
  resolve : Request -> string -> string;
  hexEscapeNonASCII : string -> string;
  forward : Request -> list call
}.

(** [httputil.ReverseProxy], of which the program sets [Director] only. *)
Record ReverseProxy := mkReverseProxy {
  Director : Request -> Request
}.

Section Program.
Context `{E : Env}.

(** The anchor both redirects write for GET. *)
Definition note (urlStr : string) (code : Z) : string :=
  "<a href=" +:+ dquote +:+ EscapeString urlStr +:+ dquote +:+ ">"
    +:+ StatusText code +:+ "</a>." +:+ newline.

(** [http.Redirect(w, r, url, code)] of net/http; its [htmlEscape] makes
    the replacements of [html.EscapeString]. *)
Definition http_Redirect `{ResponseWriter W}
    (w : W) (r : Request) (url : string) (code : Z) : W :=
  let url := if isRelative url then resolve r url else url in
  let hadCT := bool_decide (is_Some (GetHeader w !! "Content-Type")) in
  let w := SetHeader "Location" (hexEscapeNonASCII url) w in
  let w :=
    if negb hadCT && (String.eqb (Method r) "GET" || String.eqb (Method r) "HEAD")
    then SetHeader "Content-Type" "text/html; charset=utf-8" w else w in
  let w := WriteHeader code w in
  if negb hadCT && String.eqb (Method r) "GET"
  then Fprintln (note url code) w else w.

(** The method [ServeHTTP(rw, req)] of [httputil.ReverseProxy]: the
    director works on a clone of the request, so [req] itself is not
    changed; the result is the writer after the calls and the request
    that went out. *)
Definition ReverseProxy_ServeHTTP `{ResponseWriter W}
    (p : ReverseProxy) (rw : W) (req : Request) : W * Request :=
  let outreq := Director p req in
  (perform_all (forward outreq) rw, outreq).

(** *** redirectByHost (main.go 151-172) *)

Definition redirectByHost `{ResponseWriter W}
    (hostMap : gmap string string) (w : W) (r : Request)
    : bool * W * Request :=
  match hostMap !! Host r with
  | None => (false, w, r)
  | Some newHost =>
      let r := with_URL (set_Host newHost (rURL r)) r in
      let urlStr := URL_String (rURL r) in
      let w := SetHeader "Location" urlStr w in
      let code := StatusFound in
      let w := WriteHeader code w in
      let w :=
        if String.eqb (Method r) "GET"
        then Fprintln (note urlStr code) w else w in
      (true, w, r)
  end.

(** *** reverseProxy (main.go 74-116) *)

Record reverseProxy := mkReverseProxyHandler {
  redirects : gmap string string;
  backends : gmap string string;
  proxy : ReverseProxy
}.

(** A missing key of a Go map reads as the empty string. *)
Definition director (backends : gmap string string) (r : Request) : Request :=
  let r := with_URL (set_Scheme "http" (rURL r)) r in
  with_URL (set_Host (default EmptyString (backends !! Host r)) (rURL r)) r.

Definition newReverseProxy (redirects backends : gmap string string)
    : reverseProxy :=
  mkReverseProxyHandler redirects backends
    (mkReverseProxy (director backends)).

(** What one call of the handler leaves behind: the writer and the
    request as the caller sees them afterwards, the messages given to
    [log.Printf] and the requests sent to a backend. *)
Record outcome (W : Type) := mkOutcome {
  out_w : W;
  out_r : Request;
  logged : list string;
  forwarded : list Request
}.
Arguments mkOutcome {W} _ _ _ _.
Arguments out_w {W} _.
Arguments out_r {W} _.
Arguments logged {W} _.
Arguments forwarded {W} _.

(** The message [log.Printf] formats from [r.Method], [urlStr] and the
    status, with the verbs [%s %s %d]; [urlStr] comes from
    [fmt.Sprintf] with the verbs [%s%s?%s]. *)
Definition log_line (r : Request) (st : Z) : string :=
  let urlStr := Host r +:+ EscapedPath (rURL r) +:+ "?" +:+ RawQuery (rURL r) in
  Method r +:+ " " +:+ urlStr +:+ " " +:+ pretty st.

Definition ServeHTTP `{ResponseWriter W}
    (rp : reverseProxy) (w : W) (r : Request) : outcome W :=
  let '(ok, w, r) := redirectByHost (redirects rp) w r in
  if ok then mkOutcome w r [] []
  else
    let host := Host r in
    match backends rp !! host with
    | Some _ =>
        let respW := wrap w in
        let '(respW, outreq) := ReverseProxy_ServeHTTP (proxy rp) respW r in
        let msgs :=
          if bool_decide (status respW ≠ 200) then [log_line r (status respW)]
          else [] in
        mkOutcome (inner respW) r msgs [outreq]
    | None =>
        mkOutcome (Write ("unknown host: " +:+ host) w) r [] []
    end.

(** *** The handler of serveToTLS (main.go 129-134) *)

Definition serveToTLS_handler `{ResponseWriter W} (w : W) (r : Request) : W * Request :=
  let r := with_URL (set_Scheme "https" (rURL r)) r in
  let r := with_URL (set_Host (Host r) (rURL r)) r in
  let urlStr := URL_String (rURL r) in
  (http_Redirect w r urlStr StatusFound, r).

End Program.

Arguments mkOutcome {W} _ _ _ _.
Arguments out_w {W} _.
Arguments out_r {W} _.
Arguments logged {W} _.
Arguments forwarded {W} _.

(** ** Observations *)

(** The arguments of the [WriteHeader] calls of a list, in order. *)
Definition codes (cs : list call) : list Z :=
  omap (λ c, match c with CallWriteHeader code => Some code | _ => None end) cs.

(** The status the handler reads from the wrapper once the forwarding
    primitive has returned (main.go 104-108). *)
Definition captured_status `{E : Env} `{ResponseWriter W}
    (rp : reverseProxy) (w : W) (r : Request) : Z :=
  status (fst (ReverseProxy_ServeHTTP (proxy rp) (wrap w) r)).

(** The three ways a request can be disposed of. *)
Inductive disposition :=
  | Redirect (target : string)
  | Proxy (backendAddress : string)
  | Unknown.

(** The router in the words of the specification (section 4.1): the
    redirect table first, then the backend table, else unknown. *)
Definition route_spec (redirects backends : gmap string string)
    (host : string) : disposition :=
  match redirects !! host with
  | Some target => Redirect target
  | None =>
      match backends !! host with
      | Some addr => Proxy addr
      | None => Unknown
      end
  end.

(** The disposition as it shows in the outcome of the handler: a request
    went out to the host of its URL, or the client was sent 302 towards
    the host now in the request's URL, or neither. *)
Definition dispatched (o : outcome response) : disposition :=
  match forwarded o with
  | out :: _ => Proxy (UHost (rURL out))
  | [] =>
      if bool_decide (sent_status (out_w o) = Some StatusFound)
      then Redirect (UHost (rURL (out_r o)))
      else Unknown
  end.

(** ** The tables as the map objects they are *)

(** A Go map value is a reference to a map object. The two maps that
    mainWithErr makes are held by the handler and, the backend map, by the
    closure of the director as well; every request reads them where they
    are. The heap holds the map objects; a computation takes the heap and
    returns it with its result. *)
Abbreviation loc := positive.
Abbreviation heap := (gmap positive (gmap string string)).

(** The map object behind a reference; a nil map reads as empty. *)
Definition table_at (h : heap) (l : loc) : gmap string string :=
  default ∅ (h !! l).

Module Shared.

Definition St (A : Type) : Type := heap → A * heap.

#[export] Instance St_ret : MRet St := λ A a h, (a, h).
#[export] Instance St_bind : MBind St :=
  λ A B f m h, let '(a, h') := m h in f a h'.

(** A map literal: a new map object. *)
Definition make_map (m : gmap string string) : St loc :=
  λ h, let l := fresh (dom h) in (l, <[l := m]> h).

(** [m[k] = v]. *)
Definition map_assign (l : loc) (k v : string) : St unit :=
  λ h, (tt, <[l := <[k := v]> (table_at h l)]> h).

(** [v, ok := m[k]]. *)
Definition map_index (l : loc) (k : string) : St (option string) :=
  λ h, (h !! l ≫= λ m, m !! k, h).

Record ReverseProxy := mkReverseProxy {
  Director : Request → St Request
}.

Record reverseProxy := mkReverseProxyHandler {
  redirects : loc;
  backends : loc;
  proxy : ReverseProxy
}.

Section Program.
Context `{E : Env}.

Definition ReverseProxy_ServeHTTP `{ResponseWriter W}
    (p : ReverseProxy) (rw : W) (req : Request) : St (W * Request) :=
  outreq ← Director p req;
  mret (perform_all (forward outreq) rw, outreq).

(** main.go 151-172. *)
Definition redirectByHost `{ResponseWriter W}
    (hostMap : loc) (w : W) (r : Request) : St (bool * W * Request) :=
  found ← map_index hostMap (Host r);
  match found with
  | None => mret (false, w, r)
  | Some newHost =>
      let r := with_URL (set_Host newHost (rURL r)) r in
      let urlStr := URL_String (rURL r) in
      let w := SetHeader "Location" urlStr w in
      let code := StatusFound in
      let w := WriteHeader code w in
      let w :=
        if String.eqb (Method r) "GET"
        then Fprintln (note urlStr code) w else w in
      mret (true, w, r)
  end.

(** main.go 82-85: the closure reads the backend map when it runs. *)
Definition director (backends : loc) (r : Request) : St Request :=
  let r := with_URL (set_Scheme "http" (rURL r)) r in
  found ← map_index backends (Host r);
  mret (with_URL (set_Host (default EmptyString found) (rURL r)) r).

(** main.go 81-93. *)
Definition newReverseProxy (redirects backends : loc) : reverseProxy :=
  mkReverseProxyHandler redirects backends
    (mkReverseProxy (director backends)).

(** main.go 95-116. *)
Definition ServeHTTP `{ResponseWriter W}
    (rp : reverseProxy) (w : W) (r : Request) : St (outcome W) :=
  res ← redirectByHost (redirects rp) w r;
  let '(ok, w, r) := (res : bool * W * Request) in
  if ok then mret (M := St) (mkOutcome w r [] [])
  else
    let host := Host r in
    found ← map_index (backends rp) host;
    match found with
    | Some _ =>
        let respW := wrap w in
        res ← ReverseProxy_ServeHTTP (proxy rp) respW r;
        let '(respW, outreq) := (res : responseWriter W * Request) in
        let msgs :=
          if bool_decide (status respW ≠ 200) then [log_line r (status respW)]
          else [] in
        mret (M := St) (mkOutcome (inner respW) r msgs [outreq])
    | None =>
        mret (mkOutcome (Write ("unknown host: " +:+ host) w) r [] [])
    end.

(** The server calls the handler once for each request, with a writer
    of its own, one request after the other on the same heap. *)
Fixpoint serve_all (rp : reverseProxy) (rs : list Request)
    : St (list (outcome response)) :=
  match rs with
  | [] => mret ([] : list (outcome response))
  | r :: rs' =>
      o ← ServeHTTP rp newResponse r;
      os ← serve_all rp rs';
      mret (o :: os)
  end.

End Program.

(** The two map literals of mainWithErr (main.go 30-38), each a new map
    object with its entries assigned, and the handler that serveTLS
    builds on them (main.go 119). *)
Definition mainWithErr_handler : St reverseProxy :=
  redirects ← make_map ∅;
  _ ← map_assign redirects "my.domain" "www.my.domain";
  backends ← make_map ∅;
  _ ← map_assign backends "www.my.domain" "localhost:12345";
  _ ← map_assign backends "xyz.my.domain" "localhost:22345";
  mret (newReverseProxy redirects backends).

End Shared.

(** ** The configuration of mainWithErr and an environment to run it in *)

Definition main_redirects : gmap string string :=
  {[ "my.domain" := "www.my.domain" ]}.

Definition main_backends : gmap string string :=
  <[ "www.my.domain" := "localhost:12345" ]>
    {[ "xyz.my.domain" := "localhost:22345" ]}.

(** How Go prints a URL that has no opaque part, no user and no fragment,
    with [OmitHost] unset, and whose path is empty or starts with a slash
    and needs no escaping. *)
Definition plain_String (u : URL) : string :=
  (if String.eqb (Scheme u) EmptyString then EmptyString else Scheme u +:+ ":")
  +:+ (if negb (String.eqb (Scheme u) EmptyString) || negb (String.eqb (UHost u) EmptyString)
       then (if negb (String.eqb (UHost u) EmptyString) || negb (String.eqb (Path u) EmptyString)
             then "//" else EmptyString) +:+ UHost u
       else EmptyString)
  +:+ Path u
  +:+ (if ForceQuery u || negb (String.eqb (RawQuery u) EmptyString)
       then "?" +:+ RawQuery u else EmptyString).

(** A backend that fails on [/foo], answers without an explicit status on
    [/implicit] and answers 200 elsewhere. *)
Definition sample_forward (out : Request) : list call :=
  if String.eqb (Path (rURL out)) "/foo"
  then [CallWriteHeader 500; CallWrite "boom"]
  else if String.eqb (Path (rURL out)) "/implicit"
  then [CallWrite "ok"]
  else [CallSetHeader "Content-Type" "text/plain"; CallWriteHeader 200; CallWrite "ok"].

Definition sample_StatusText (code : Z) : string :=
  if Z.eqb code 200 then "OK"
  else if Z.eqb code 302 then "Found"
  else if Z.eqb code 500 then "Internal Server Error"
  else EmptyString.

Definition sample_isRelative (s : string) : bool :=
  negb (String.prefix "http:" s || String.prefix "https:" s || String.prefix "//" s).

Definition sampleEnv : Env := {|
  URL_String := plain_String;
  EscapedPath := Path;
  StatusText := sample_StatusText;
  isRelative := sample_isRelative;
  resolve := λ _ s, s;
  hexEscapeNonASCII := http_hexEscapeNonASCII;
  forward := sample_forward
|}.

(** The URL of a request as the server parses it from an origin-form
    request line: path and query only. *)
Definition origin_form (path query : string) : URL :=
  mkURL EmptyString EmptyString None EmptyString path EmptyString false false
        query EmptyString EmptyString.

Definition sample_rp : reverseProxy :=
  @newReverseProxy main_redirects main_backends.

(** A handler whose two tables share the key [my.domain]. *)
Definition overlap_rp : reverseProxy :=
  newReverseProxy main_redirects (<[ "my.domain" := "localhost:12345" ]> main_backends).

(** A call that only touches the header map. *)
Definition is_SetHeader (c : call) : bool :=
  match c with
  | CallSetHeader _ _ => true
  | _ => false
  end.

(** The characters of a string, in order. *)
Fixpoint chars (s : string) : list ascii :=
  match s with
  | EmptyString => []
  | String c s' => c :: chars s'
  end.

(** ** The wrapper *)

Lemma perform_all_cons `{ResponseWriter W} c cs (w : W) :
  perform_all (c :: cs) w = perform_all cs (perform c w).
Proof. reflexivity. Qed.

Section Wrapper.
Context `{ResponseWriter W}.

(** Every call reaches the inner writer, as if there were no wrapper. *)
Lemma wrapper_inner cs (rw : responseWriter W) :
  inner (perform_all cs rw) = perform_all cs (inner rw).
Proof.
  revert rw. induction cs as [|c cs IH]; intros rw; [done|].
  rewrite !perform_all_cons, IH. by destruct c.
Qed.

(** The field holds the argument of the latest [WriteHeader]. *)
Lemma wrapper_status cs (rw : responseWriter W) :
  status (perform_all cs rw) = default (status rw) (last (codes cs)).
Proof.
  revert rw. induction cs as [|c cs IH]; intros rw; [done|].
  rewrite perform_all_cons, IH.
  destruct c as [k v|code|data]; [done| |done].
  change (codes (CallWriteHeader code :: cs)) with (code :: codes cs).
  rewrite last_cons. by destruct (last (codes cs)).
Qed.

End Wrapper.

(** C7, as amended: for every sequence of calls made on a wrapper created
    for a request, the status read afterwards is the argument of the last
    [WriteHeader] call of the sequence (every call overwrites the field),
    and zero when the sequence has none. *)
Theorem captured_status_last_WriteHeader `{ResponseWriter W} (w : W) (cs : list call) :
  status (perform_all cs (wrap w)) = default 0 (last (codes cs)).
Proof. by rewrite wrapper_status. Qed.

(** C7, as stated, fails: after [WriteHeader(200)] then [WriteHeader(500)]
    the wrapper holds 500, not the argument of the first call, while the
    client was sent 200. *)
Lemma captured_status_not_first :
  let cs := [CallWriteHeader 200; CallWriteHeader 500] in
  let respW := perform_all cs (wrap newResponse) in
  head (codes cs) = Some 200 ∧ status respW = 500 ∧ status respW ≠ 200
  ∧ sent_status (inner respW) = Some 200.
Proof. cbv zeta. repeat split. discriminate. Qed.

(** C2, as amended: when no [WriteHeader] call is made on the wrapper,
    the status read afterwards is 0, the value the field is created
    with. *)
Theorem captured_status_zero_without_WriteHeader `{ResponseWriter W}
    (w : W) (cs : list call) :
  codes cs = [] → status (perform_all cs (wrap w)) = 0.
Proof. intros Hcs. by rewrite wrapper_status, Hcs. Qed.

Lemma captured_status_zero_without_WriteHeader_witness :
  codes [CallSetHeader "Content-Type" "text/plain"; CallWrite "ok"] = []
  ∧ status (perform_all [CallSetHeader "Content-Type" "text/plain"; CallWrite "ok"]
                        (wrap newResponse)) = 0.
Proof.
  split; [reflexivity|].
  apply (captured_status_zero_without_WriteHeader newResponse). reflexivity.
Defined.

(** C2, as stated, fails: a forwarder that only writes a body never calls
    [WriteHeader]; the client is sent the default 200, and the wrapper
    reads 0. *)
Lemma implicit_status_not_captured :
  let cs := [CallWrite "ok"] in
  let respW := perform_all cs (wrap newResponse) in
  codes cs = [] ∧ sent_status (inner respW) = Some StatusOK
  ∧ status respW = 0 ∧ status respW ≠ StatusOK.
Proof. cbv zeta. repeat split. discriminate. Qed.

(** ** The handlers *)

Lemma string_app_assoc (s1 s2 s3 : string) :
  (s1 +:+ s2) +:+ s3 = s1 +:+ s2 +:+ s3.
Proof.
  induction s1 as [|a s1 IH]; [done|].
  change (String a ((s1 +:+ s2) +:+ s3) = String a (s1 +:+ s2 +:+ s3)).
  by rewrite IH.
Qed.

Section Handlers.
Context `{E : Env}.

Lemma redirectByHost_None `{ResponseWriter W} hostMap (w : W) r :
  hostMap !! Host r = None → redirectByHost hostMap w r = (false, w, r).
Proof. intros Hm. unfold redirectByHost. by rewrite Hm. Qed.

(** The three results of a hit, for any writer. *)
Lemma redirectByHost_Some `{ResponseWriter W} hostMap (w : W) r t :
  hostMap !! Host r = Some t →
  redirectByHost hostMap w r =
    (true,
     (let urlStr := URL_String (set_Host t (rURL r)) in
      let w1 := WriteHeader StatusFound (SetHeader "Location" urlStr w) in
      if String.eqb (Method r) "GET"
      then Fprintln (note urlStr StatusFound) w1 else w1),
     with_URL (set_Host t (rURL r)) r).
Proof. intros Hm. unfold redirectByHost. by rewrite Hm. Qed.

(** What a client that had been sent nothing receives from a redirect. *)
Lemma redirect_response (w : response) (m urlStr : string) :
  sent w = None →
  let w1 := WriteHeader StatusFound (SetHeader "Location" urlStr w) in
  let w2 := if String.eqb m "GET"
            then Fprintln (note urlStr StatusFound) w1 else w1 in
  sent_status w2 = Some StatusFound
  ∧ sent_header "Location" w2 = Some [urlStr]
  ∧ body w2 = if String.eqb m "GET"
              then body w +:+ note urlStr StatusFound +:+ newline
              else body w.
Proof.
  intros Hs. cbn. unfold response_WriteHeader. cbn. rewrite Hs.
  unfold sent_status, sent_header, Header_Set.
  destruct (String.eqb m "GET"); cbn; by rewrite lookup_insert_eq.
Qed.


Lemma ServeHTTP_hit `{ResponseWriter W} rp (w : W) r t :
  redirects rp !! Host r = Some t →
  ServeHTTP rp w r =
    mkOutcome (redirectByHost (redirects rp) w r).1.2
              (with_URL (set_Host t (rURL r)) r) [] [].
Proof.
  intros Hm. unfold ServeHTTP. by rewrite (redirectByHost_Some _ _ _ _ Hm).
Qed.

Lemma ServeHTTP_proxied `{ResponseWriter W} rp (w : W) r addr :
  redirects rp !! Host r = None →
  backends rp !! Host r = Some addr →
  ServeHTTP rp w r =
    let respW := (ReverseProxy_ServeHTTP (proxy rp) (wrap w) r).1 in
    mkOutcome (inner respW) r
      (if bool_decide (status respW ≠ 200) then [log_line r (status respW)]
       else [])
      [Director (proxy rp) r].
Proof.
  intros Hr Hb. unfold ServeHTTP.
  rewrite (redirectByHost_None _ _ _ Hr). cbn. by rewrite Hb.
Qed.

Lemma ServeHTTP_miss `{ResponseWriter W} rp (w : W) r :
  redirects rp !! Host r = None →
  backends rp !! Host r = None →
  ServeHTTP rp w r =
    mkOutcome (Write ("unknown host: " +:+ Host r) w) r [] [].
Proof.
  intros Hr Hb. unfold ServeHTTP.
  rewrite (redirectByHost_None _ _ _ Hr). cbn. by rewrite Hb.
Qed.

(** The outcome of the handler shows the disposition the router of the
    specification computes. *)
Lemma dispatched_route rd bk r :
  dispatched (ServeHTTP (newReverseProxy rd bk) newResponse r)
  = route_spec rd bk (Host r).
Proof.
  unfold route_spec.
  destruct (rd !! Host r) as [t|] eqn:Hr.
  - rewrite (ServeHTTP_hit _ _ _ t) by done.
    rewrite (redirectByHost_Some _ _ _ _ Hr). unfold dispatched. cbn [forwarded out_w out_r fst snd].
    destruct (redirect_response newResponse (Method r)
                (URL_String (set_Host t (rURL r))) eq_refl) as (Hst & _ & _).
    cbn zeta in Hst. change (Method (with_URL (set_Host t (rURL r)) r)) with (Method r).
    rewrite Hst. by rewrite bool_decide_eq_true_2.
  - destruct (bk !! Host r) as [addr|] eqn:Hb.
    + rewrite (ServeHTTP_proxied _ _ _ addr) by done.
      unfold dispatched. cbn. by rewrite Hb.
    + by rewrite ServeHTTP_miss.
Qed.

End Handlers.

(** ** The properties of the specification *)

Section Properties.
Context `{E : Env}.

(** C1: a host that is a key of the redirect table is redirected to the
    host the table maps it to, whatever the backend table holds: the
    client is sent 302 with the location of the request's URL on that
    host, nothing is forwarded to a backend and nothing is logged. *)
Theorem ServeHTTP_redirect_priority rp (w : response) r t :
  redirects rp !! Host r = Some t →
  sent w = None →
  let o := ServeHTTP rp w r in
  sent_status (out_w o) = Some StatusFound
  ∧ sent_header "Location" (out_w o) = Some [URL_String (set_Host t (rURL r))]
  ∧ dispatched o = Redirect t
  ∧ forwarded o = []
  ∧ logged o = [].
Proof.
  intros Hr Hs o. subst o. rewrite (ServeHTTP_hit _ _ _ t) by done.
  rewrite (redirectByHost_Some _ _ _ _ Hr). cbn [out_w out_r forwarded logged fst snd].
  destruct (redirect_response w (Method r)
              (URL_String (set_Host t (rURL r))) Hs) as (Hst & Hloc & _).
  cbn zeta in Hst, Hloc.
  change (Method (with_URL (set_Host t (rURL r)) r)) with (Method r).
  repeat split; try done.
  unfold dispatched. cbn [out_w out_r forwarded].
  rewrite Hst. by rewrite bool_decide_eq_true_2.
Qed.

(** C3: for a request sent to a backend, the handler logs nothing when
    the captured status is 200, and otherwise logs exactly one line,
    the method, a space, the host followed by the escaped path, a
    question mark and the raw query, a space, and the status in
    decimal. *)
Theorem ServeHTTP_proxy_log `{ResponseWriter W} rp (w : W) r addr :
  redirects rp !! Host r = None →
  backends rp !! Host r = Some addr →
  let o := ServeHTTP rp w r in
  let st := captured_status rp w r in
  forwarded o = [Director (proxy rp) r]
  ∧ (logged o ≠ [] ↔ st ≠ 200)
  ∧ logged o =
      if bool_decide (st = 200) then []
      else [Method r +:+ " " +:+ Host r +:+ EscapedPath (rURL r) +:+ "?"
              +:+ RawQuery (rURL r) +:+ " " +:+ pretty st].
Proof.
  intros Hr Hb o st. subst o st. unfold captured_status.
  rewrite (ServeHTTP_proxied _ _ _ addr) by done.
  cbn [forwarded logged]. unfold log_line. cbn zeta.
  rewrite !string_app_assoc.
  set (st := status _).
  split; [done|].
  destruct (decide (st = 200)) as [Heq|Hne].
  - rewrite (bool_decide_eq_false_2 (st ≠ 200)) by (by intros ?).
    rewrite (bool_decide_eq_true_2 (st = 200)) by done.
    split; [|done]. split; [done|]. by intros ?.
  - rewrite (bool_decide_eq_true_2 (st ≠ 200)) by done.
    rewrite (bool_decide_eq_false_2 (st = 200)) by done.
    split; [|done]. split; [done|]. by intros _ ?.
Qed.

(** C4: a host in neither table is answered with the text
    [unknown host: ] followed by the host, and the client, which had
    been sent nothing, receives status 200. *)
Theorem ServeHTTP_unknown_host rp (w : response) r :
  redirects rp !! Host r = None →
  backends rp !! Host r = None →
  sent w = None →
  let o := ServeHTTP rp w r in
  body (out_w o) = body w +:+ "unknown host: " +:+ Host r
  ∧ sent_status (out_w o) = Some StatusOK
  ∧ forwarded o = []
  ∧ logged o = [].
Proof.
  intros Hr Hb Hs o. subst o. rewrite ServeHTTP_miss by done.
  cbn. unfold sent_status, response_WriteHeader. by rewrite Hs.
Qed.

(** C5: for a host in the table, [redirectByHost] returns true, sends
    302 with the location of the target URL and, for GET exactly, writes
    the anchor to the escaped location with the text of status 302;
    any other method gets no body. *)
Theorem redirectByHost_emits hostMap (w : response) r t :
  hostMap !! Host r = Some t →
  sent w = None →
  let urlStr := URL_String (set_Host t (rURL r)) in
  let res := redirectByHost hostMap w r in
  res.1.1 = true
  ∧ sent_status res.1.2 = Some 302
  ∧ sent_header "Location" res.1.2 = Some [urlStr]
  ∧ body res.1.2 =
      if String.eqb (Method r) "GET"
      then body w +:+ ("<a href=" +:+ dquote +:+ EscapeString urlStr
                         +:+ dquote +:+ ">" +:+ StatusText 302 +:+ "</a>."
                         +:+ newline) +:+ newline
      else body w.
Proof.
  intros Hm Hs urlStr res. subst res.
  rewrite (redirectByHost_Some _ _ _ _ Hm). cbn [fst snd].
  change (Method (with_URL (set_Host t (rURL r)) r)) with (Method r).
  split; [done|]. exact (redirect_response w (Method r) urlStr Hs).
Qed.

(** C6, as amended: [redirectByHost] writes the target into the host of
    the request's own URL, no copy being made: afterwards the request's
    URL is the original with the host replaced and every other field,
    scheme, path and query among them, as before, and the location is
    the string of that URL. *)
Theorem redirectByHost_rewrites_URL hostMap (w : response) r t :
  hostMap !! Host r = Some t →
  let res := redirectByHost hostMap w r in
  rURL res.2 = set_Host t (rURL r)
  ∧ UHost (rURL res.2) = t
  ∧ Scheme (rURL res.2) = Scheme (rURL r)
  ∧ Path (rURL res.2) = Path (rURL r)
  ∧ RawQuery (rURL res.2) = RawQuery (rURL r)
  ∧ header res.1.2 !! "Location" = Some [URL_String (rURL res.2)].
Proof.
  intros Hm res. subst res. rewrite (redirectByHost_Some _ _ _ _ Hm).
  cbn [fst snd]. repeat split.
  change (Method (with_URL (set_Host t (rURL r)) r)) with (Method r).
  destruct (String.eqb (Method r) "GET"); cbn;
    unfold response_WriteHeader; destruct (sent w); cbn;
    unfold Header_Set; by rewrite lookup_insert_eq.
Qed.

(** C8, as amended: the plaintext handler answers 302 with the location
    of the request's URL under scheme https and the host of the request,
    path and query as they were, written as [http.Redirect] writes a
    header value: each byte from 0x80 on percent-escaped. The hypothesis
    on the environment says that [http.Redirect] does not take this url,
    which has a scheme, for a relative one. *)
Theorem serveToTLS_redirects (w : response) r :
  let u := set_Host (Host r) (set_Scheme "https" (rURL r)) in
  isRelative (URL_String u) = false →
  sent w = None →
  sent_status (serveToTLS_handler w r).1 = Some StatusFound
  ∧ sent_header "Location" (serveToTLS_handler w r).1
    = Some [hexEscapeNonASCII (URL_String u)]
  ∧ Scheme u = "https"
  ∧ UHost u = Host r
  ∧ Path u = Path (rURL r)
  ∧ RawQuery u = RawQuery (rURL r).
Proof.
  intros u Hrel Hs. unfold serveToTLS_handler, http_Redirect. cbn [fst].
  change (URL_String (rURL _)) with (URL_String u).
  rewrite Hrel.
  change (Method (with_URL _ _)) with (Method r).
  destruct (bool_decide _), (String.eqb (Method r) "GET"),
    (String.eqb (Method r) "HEAD"); cbn;
    unfold response_Write, response_WriteHeader, sent_status, sent_header;
    cbn; rewrite Hs; cbn; unfold Header_Set;
    rewrite ?(lookup_insert_ne _ "Content-Type" "Location") by done;
    rewrite lookup_insert_eq; done.
Qed.

(** C10: for a host that is not a key of the table, [redirectByHost]
    returns false and hands back the writer and the request as it got
    them: no header set, no status, no body, the URL as it was. *)
Theorem redirectByHost_miss `{ResponseWriter W} hostMap (w : W) r :
  hostMap !! Host r = None →
  let res := redirectByHost hostMap w r in
  res.1.1 = false ∧ res.1.2 = w ∧ res.2 = r ∧ rURL res.2 = rURL r.
Proof. intros Hm res. subst res. by rewrite redirectByHost_None. Qed.

End Properties.

(** A string of ASCII bytes is a header value as it stands. *)
Lemma http_hexEscapeNonASCII_ascii (s : string) :
  Forall (λ c, (N_of_ascii c < 128)%N) (chars s) →
  http_hexEscapeNonASCII s = s.
Proof.
  induction s as [|c s IH]; [done|].
  intros Hall. apply Forall_cons in Hall as [Hc Hs].
  cbn [http_hexEscapeNonASCII]. rewrite IH by done.
  unfold hexEscape_byte.
  destruct (128 <=? N_of_ascii c)%N eqn:Hle; [|done].
  apply N.leb_le in Hle. lia.
Qed.

(** ** The handler on shared maps *)

Lemma map_index_at (h : heap) (l : loc) (k : string) :
  Shared.map_index l k h = (table_at h l !! k, h).
Proof.
  unfold Shared.map_index, table_at. by destruct (h !! l).
Qed.

(** On the heap, the handler answers as it does on the two tables its
    references lead to, and hands the heap back as it got it. *)
Lemma Shared_ServeHTTP_reads `{E : Env} `{ResponseWriter W}
    (l1 l2 : loc) (w : W) (r : Request) (h : heap) :
  Shared.ServeHTTP (Shared.newReverseProxy l1 l2) w r h
  = (ServeHTTP (newReverseProxy (table_at h l1) (table_at h l2)) w r, h).
Proof.
  unfold Shared.ServeHTTP, Shared.redirectByHost.
  cbv [mbind mret Shared.St_bind Shared.St_ret].
  cbn [Shared.redirects Shared.backends Shared.proxy Shared.newReverseProxy].
  rewrite map_index_at.
  destruct (table_at h l1 !! Host r) as [t|] eqn:Hr.
  - by rewrite (ServeHTTP_hit _ _ _ t), (redirectByHost_Some _ _ _ t).
  - rewrite map_index_at.
    destruct (table_at h l2 !! Host r) as [addr|] eqn:Hb.
    + rewrite (ServeHTTP_proxied _ _ _ addr) by done.
      unfold Shared.ReverseProxy_ServeHTTP, ReverseProxy_ServeHTTP,
        Shared.director, director.
      cbv [mbind mret Shared.St_bind Shared.St_ret].
      cbn [Shared.Director Director proxy newReverseProxy].
      rewrite map_index_at.
      change (Host (with_URL (set_Scheme "http" (rURL r)) r)) with (Host r).
      rewrite Hb. unfold director. cbn [fst].
      change (Host (with_URL (set_Scheme "http" (rURL r)) r)) with (Host r).
      by rewrite Hb.
    + by rewrite ServeHTTP_miss.
Qed.

Lemma Shared_serve_all_reads `{E : Env} (l1 l2 : loc) (rs : list Request) (h : heap) :
  Shared.serve_all (Shared.newReverseProxy l1 l2) rs h
  = ((λ r, ServeHTTP (newReverseProxy (table_at h l1) (table_at h l2))
             newResponse r) <$> rs, h).
Proof.
  induction rs as [|r rs IH]; [done|].
  cbn [Shared.serve_all]. unfold mbind, Shared.St_bind.
  rewrite Shared_ServeHTTP_reads.
  fold (@mbind _ Shared.St_bind). unfold mbind, Shared.St_bind.
  by rewrite IH.
Qed.

(** C9: served one after the other on the heap that holds the two
    tables, any requests leave the heap as it was, and each of them is
    disposed of as its host alone decides on those tables: two requests
    of the run with the same host show the same disposition, towards the
    same target, wherever they come in the run and whatever their method
    and URL. *)
Theorem dispatch_stable `{E : Env} (h : heap) (l1 l2 : loc) (rs : list Request) :
  let run := Shared.serve_all (Shared.newReverseProxy l1 l2) rs h in
  run.2 = h
  ∧ dispatched <$> run.1
    = (λ r, route_spec (table_at h l1) (table_at h l2) (Host r)) <$> rs
  ∧ ∀ i j ri rj oi oj,
      rs !! i = Some ri → rs !! j = Some rj →
      run.1 !! i = Some oi → run.1 !! j = Some oj →
      Host ri = Host rj →
      dispatched oi = dispatched oj.
Proof.
  intros run. subst run. rewrite Shared_serve_all_reads. cbn [fst snd].
  split; [done|].
  assert (Hall : dispatched <$>
      ((λ r, ServeHTTP (newReverseProxy (table_at h l1) (table_at h l2))
               newResponse r) <$> rs)
    = (λ r, route_spec (table_at h l1) (table_at h l2) (Host r)) <$> rs).
  { rewrite <- list_fmap_compose. apply list_fmap_ext.
    intros ? r ?. cbn. apply dispatched_route. }
  split; [done|].
  intros i j ri rj oi oj Hi Hj Hoi Hoj Hhost.
  assert (Hd : ∀ k rk ok, rs !! k = Some rk →
      ((λ r, ServeHTTP (newReverseProxy (table_at h l1) (table_at h l2))
               newResponse r) <$> rs) !! k = Some ok →
      dispatched ok = route_spec (table_at h l1) (table_at h l2) (Host rk)).
  { intros k rk ok Hk Hok. rewrite list_lookup_fmap, Hk in Hok.
    injection Hok as <-. apply dispatched_route. }
  by rewrite (Hd i ri oi), (Hd j rj oj), Hhost.
Qed.

(** ** The theorems at work on the configuration of mainWithErr *)

Lemma ServeHTTP_redirect_priority_witness :
  let r := mkRequest "POST" "my.domain" (origin_form "/a" "b=1") in
  (backends overlap_rp !! "my.domain" = Some "localhost:12345"
   ∧ redirects overlap_rp !! Host r = Some "www.my.domain"
   ∧ sent newResponse = None)
  ∧ let o := @ServeHTTP sampleEnv _ _ overlap_rp newResponse r in
    sent_status (out_w o) = Some StatusFound
    ∧ sent_header "Location" (out_w o) = Some ["//www.my.domain/a?b=1"]
    ∧ dispatched o = Redirect "www.my.domain"
    ∧ forwarded o = []
    ∧ logged o = [].
Proof.
  split; [by vm_compute|].
  apply (@ServeHTTP_redirect_priority sampleEnv overlap_rp newResponse
           (mkRequest "POST" "my.domain" (origin_form "/a" "b=1")) "www.my.domain");
    by vm_compute.
Defined.

Lemma ServeHTTP_proxy_log_witness :
  let r := mkRequest "GET" "www.my.domain" (origin_form "/foo" "bar=1") in
  (redirects sample_rp !! Host r = None
   ∧ backends sample_rp !! Host r = Some "localhost:12345")
  ∧ let o := @ServeHTTP sampleEnv _ _ sample_rp newResponse r in
    let st := @captured_status sampleEnv _ _ sample_rp newResponse r in
    forwarded o = [Director (proxy sample_rp) r]
    ∧ (logged o ≠ [] ↔ st ≠ 200)
    ∧ logged o =
        if bool_decide (st = 200) then []
        else [Method r +:+ " " +:+ Host r +:+ Path (rURL r) +:+ "?"
                +:+ RawQuery (rURL r) +:+ " " +:+ pretty st].
Proof.
  split; [by vm_compute|].
  apply (@ServeHTTP_proxy_log sampleEnv _ _ sample_rp newResponse
           (mkRequest "GET" "www.my.domain" (origin_form "/foo" "bar=1"))
           "localhost:12345"); by vm_compute.
Defined.

Lemma ServeHTTP_unknown_host_witness :
  let r := mkRequest "GET" "unknown.example" (origin_form "/" EmptyString) in
  (redirects sample_rp !! Host r = None
   ∧ backends sample_rp !! Host r = None
   ∧ sent newResponse = None)
  ∧ let o := @ServeHTTP sampleEnv _ _ sample_rp newResponse r in
    body (out_w o) = "unknown host: unknown.example"
    ∧ sent_status (out_w o) = Some StatusOK
    ∧ forwarded o = []
    ∧ logged o = [].
Proof.
  split; [by vm_compute|].
  apply (@ServeHTTP_unknown_host sampleEnv sample_rp newResponse
           (mkRequest "GET" "unknown.example" (origin_form "/" EmptyString)));
    by vm_compute.
Defined.

Lemma redirectByHost_emits_witness :
  let r := mkRequest "GET" "my.domain" (origin_form "/a" "b=1&c=2") in
  (main_redirects !! Host r = Some "www.my.domain" ∧ sent newResponse = None)
  ∧ let res := @redirectByHost sampleEnv _ _ main_redirects newResponse r in
    res.1.1 = true
    ∧ sent_status res.1.2 = Some 302
    ∧ sent_header "Location" res.1.2 = Some ["//www.my.domain/a?b=1&c=2"]
    ∧ body res.1.2 =
        "<a href=" +:+ dquote +:+ "//www.my.domain/a?b=1&amp;c=2" +:+ dquote
          +:+ ">Found</a>." +:+ newline +:+ newline.
Proof.
  split; [by vm_compute|].
  apply (@redirectByHost_emits sampleEnv main_redirects newResponse
           (mkRequest "GET" "my.domain" (origin_form "/a" "b=1&c=2"))
           "www.my.domain"); by vm_compute.
Defined.

Lemma redirectByHost_rewrites_URL_witness :
  let r := mkRequest "HEAD" "my.domain" (origin_form "/a" "b=1") in
  main_redirects !! Host r = Some "www.my.domain"
  ∧ let res := @redirectByHost sampleEnv _ _ main_redirects newResponse r in
    rURL res.2 = set_Host "www.my.domain" (rURL r)
    ∧ UHost (rURL res.2) = "www.my.domain"
    ∧ Scheme (rURL res.2) = Scheme (rURL r)
    ∧ Path (rURL res.2) = Path (rURL r)
    ∧ RawQuery (rURL res.2) = RawQuery (rURL r)
    ∧ header res.1.2 !! "Location" = Some [plain_String (rURL res.2)].
Proof.
  split; [by vm_compute|].
  apply (@redirectByHost_rewrites_URL sampleEnv main_redirects newResponse
           (mkRequest "HEAD" "my.domain" (origin_form "/a" "b=1"))
           "www.my.domain"); by vm_compute.
Defined.

(** C6, as stated, fails: the request arrives with an empty host in its
    URL and leaves [redirectByHost] with the target there. *)
Lemma redirect_overwrites_request_URL :
  let r := mkRequest "GET" "my.domain" (origin_form "/a" "b=1") in
  let res := @redirectByHost sampleEnv _ _ main_redirects newResponse r in
  res.1.1 = true
  ∧ UHost (rURL r) = EmptyString
  ∧ UHost (rURL res.2) = "www.my.domain"
  ∧ rURL res.2 ≠ rURL r.
Proof. vm_compute. repeat split. discriminate. Qed.

Lemma serveToTLS_redirects_witness :
  let r := mkRequest "GET" "www.my.domain"
             (mkURL "http" EmptyString None "www.my.domain" "/x" EmptyString
                    false false "k=v" EmptyString EmptyString) in
  let u := set_Host (Host r) (set_Scheme "https" (rURL r)) in
  (@isRelative sampleEnv (plain_String u) = false ∧ sent newResponse = None)
  ∧ sent_status (@serveToTLS_handler sampleEnv _ _ newResponse r).1 = Some StatusFound
  ∧ sent_header "Location" (@serveToTLS_handler sampleEnv _ _ newResponse r).1
    = Some ["https://www.my.domain/x?k=v"]
  ∧ Scheme u = "https"
  ∧ UHost u = Host r
  ∧ Path u = Path (rURL r)
  ∧ RawQuery u = RawQuery (rURL r).
Proof.
  split; [by vm_compute|].
  apply (@serveToTLS_redirects sampleEnv newResponse
           (mkRequest "GET" "www.my.domain"
              (mkURL "http" EmptyString None "www.my.domain" "/x" EmptyString
                     false false "k=v" EmptyString EmptyString)));
    by vm_compute.
Defined.

(** C8, as stated, fails: a request whose query carries the two bytes of
    a UTF-8 e-acute is answered with a location in which they are
    percent-escaped, which is not the string of the request's URL. *)
Lemma serveToTLS_location_escaped :
  let q := "q=" +:+ String "195" (String "169" EmptyString) in
  let r := mkRequest "GET" "www.my.domain" (origin_form "/x" q) in
  let u := set_Host (Host r) (set_Scheme "https" (rURL r)) in
  let w := (@serveToTLS_handler sampleEnv _ _ newResponse r).1 in
  @URL_String sampleEnv u = "https://www.my.domain/x?" +:+ q
  ∧ @isRelative sampleEnv (@URL_String sampleEnv u) = false
  ∧ sent_status w = Some StatusFound
  ∧ sent_header "Location" w = Some ["https://www.my.domain/x?q=%c3%a9"]
  ∧ sent_header "Location" w ≠ Some [@URL_String sampleEnv u].
Proof. vm_compute. repeat split. discriminate. Qed.

Lemma redirectByHost_miss_witness :
  let r := mkRequest "GET" "www.my.domain" (origin_form "/a" "b=1") in
  main_redirects !! Host r = None
  ∧ let res := @redirectByHost sampleEnv _ _ main_redirects newResponse r in
    res.1.1 = false ∧ res.1.2 = newResponse ∧ res.2 = r ∧ rURL res.2 = rURL r.
Proof.
  split; [by vm_compute|].
  apply (@redirectByHost_miss sampleEnv _ _ main_redirects newResponse
           (mkRequest "GET" "www.my.domain" (origin_form "/a" "b=1")));
    by vm_compute.
Defined.

Lemma dispatch_stable_witness :
  let rp_h := Shared.mainWithErr_handler ∅ in
  let l1 := Shared.redirects rp_h.1 in
  let l2 := Shared.backends rp_h.1 in
  let rs := [mkRequest "GET" "my.domain" (origin_form "/a" "b=1");
             mkRequest "GET" "www.my.domain" (origin_form "/foo" "bar=1");
             mkRequest "POST" "my.domain" (origin_form "/c" EmptyString)] in
  let run := @Shared.serve_all sampleEnv (Shared.newReverseProxy l1 l2) rs rp_h.2 in
  (table_at rp_h.2 l1 = main_redirects ∧ table_at rp_h.2 l2 = main_backends)
  ∧ run.2 = rp_h.2
  ∧ dispatched <$> run.1
    = [Redirect "www.my.domain"; Proxy "localhost:12345"; Redirect "www.my.domain"]
  ∧ (dispatched <$> run.1) !! 0%nat = (dispatched <$> run.1) !! 2%nat.
Proof.
  cbv zeta. split; [by vm_compute|].
  pose proof (@dispatch_stable sampleEnv (Shared.mainWithErr_handler ∅).2
      (Shared.redirects (Shared.mainWithErr_handler ∅).1)
      (Shared.backends (Shared.mainWithErr_handler ∅).1)
      [mkRequest "GET" "my.domain" (origin_form "/a" "b=1");
       mkRequest "GET" "www.my.domain" (origin_form "/foo" "bar=1");
       mkRequest "POST" "my.domain" (origin_form "/c" EmptyString)])
    as (Hheap & Hall & Hsame).
  split; [exact Hheap|]. split.
  - etrans; [exact Hall|]. by vm_compute.
  - rewrite !list_lookup_fmap.
    destruct (_ !! 0%nat) as [o0|] eqn:H0; [|by vm_compute in H0].
    destruct (_ !! 2%nat) as [o2|] eqn:H2; [|by vm_compute in H2].
    cbn. f_equal.
    by apply (Hsame 0%nat 2%nat
                (mkRequest "GET" "my.domain" (origin_form "/a" "b=1"))
                (mkRequest "POST" "my.domain" (origin_form "/c" EmptyString))
                o0 o2).
Defined.

(** The tables do decide: once an entry for [www.my.domain] is assigned
    to the redirect map on the heap, the host is redirected where it was
    proxied before. *)
Example dispatch_follows_the_heap :
  let rp_h := Shared.mainWithErr_handler ∅ in
  let r := mkRequest "GET" "www.my.domain" (origin_form "/" EmptyString) in
  let h' := (Shared.map_assign (Shared.redirects rp_h.1)
               "www.my.domain" "elsewhere" rp_h.2).2 in
  dispatched (@Shared.ServeHTTP sampleEnv _ _ rp_h.1 newResponse r rp_h.2).1
  = Proxy "localhost:12345"
  ∧ dispatched (@Shared.ServeHTTP sampleEnv _ _ rp_h.1 newResponse r h').1
    = Redirect "elsewhere".
Proof. by vm_compute. Qed.

(** The scenarios of the specification, run. *)

Example scenario_backend_500 :
  logged (@ServeHTTP sampleEnv _ _ sample_rp newResponse
            (mkRequest "GET" "www.my.domain" (origin_form "/foo" "bar=1")))
  = ["GET www.my.domain/foo?bar=1 500"].
Proof. by vm_compute. Qed.

Example scenario_backend_200 :
  logged (@ServeHTTP sampleEnv _ _ sample_rp newResponse
            (mkRequest "GET" "xyz.my.domain" (origin_form "/" EmptyString)))
  = [].
Proof. by vm_compute. Qed.

(** A backend answer without an explicit status reaches the client as 200
    and the log as 0. *)
Example scenario_backend_implicit :
  let o := @ServeHTTP sampleEnv _ _ sample_rp newResponse
             (mkRequest "GET" "www.my.domain" (origin_form "/implicit" EmptyString)) in
  sent_status (out_w o) = Some 200
  ∧ logged o = ["GET www.my.domain/implicit? 0"].
Proof. by vm_compute. Qed.


(** ** Further properties of the wrapper and the handlers *)

Lemma perform_all_app `{ResponseWriter W} cs1 cs2 (w : W) :
  perform_all (cs1 ++ cs2) w = perform_all cs2 (perform_all cs1 w).
Proof. unfold perform_all. by rewrite foldl_app. Qed.

(** Calls that only set headers send nothing. *)
Lemma SetHeaders_send_nothing cs (w : response) :
  forallb is_SetHeader cs = true → sent (perform_all cs w) = sent w.
Proof.
  revert w. induction cs as [|c cs IH]; intros w Hcs; [done|].
  cbn in Hcs. apply andb_prop in Hcs as [Hc Hcs].
  rewrite perform_all_cons, IH by done. by destruct c.
Qed.

(** What has been sent stays as it is, whatever is called afterwards. *)
Lemma sent_stable cs (w : response) p :
  sent w = Some p → sent (perform_all cs w) = Some p.
Proof.
  revert w. induction cs as [|c cs IH]; intros w Hp; [done|].
  rewrite perform_all_cons. apply IH.
  destruct c; cbn; unfold response_Write, response_WriteHeader;
    by rewrite Hp.
Qed.

Lemma chars_app s1 s2 : chars (s1 +:+ s2) = (chars s1 ++ chars s2)%list.
Proof.
  induction s1 as [|a s1 IH]; [done|].
  change (a :: chars (s1 +:+ s2) = a :: (chars s1 ++ chars s2)%list).
  by rewrite IH.
Qed.

(** X1: the wrapper is transparent to the writer it wraps: after any
    sequence of calls, the inner writer is in the state the same calls
    leave it in without the wrapper. *)
Theorem wrapper_transparent `{ResponseWriter W} (w : W) (cs : list call) :
  inner (perform_all cs (wrap w)) = perform_all cs w
  ∧ GetHeader (perform_all cs (wrap w)) = GetHeader (perform_all cs w).
Proof.
  assert (Hin := wrapper_inner cs (wrap w)). cbn [wrap inner] in Hin.
  split; [done|]. cbn [GetHeader responseWriter_ResponseWriter].
  by rewrite Hin.
Qed.

(** X3: every request the handler built by [newReverseProxy] sends out
    goes to the address the backend table maps the host to, under scheme
    http, with the method, the host header, the path and the query of the
    incoming request, and only for a host that is not redirected. *)
Theorem forwarded_request_shape `{E : Env} `{ResponseWriter W}
    (rd bk : gmap string string) (w : W) (r : Request) :
  Forall (λ out,
      rd !! Host r = None
      ∧ bk !! Host r = Some (UHost (rURL out))
      ∧ Scheme (rURL out) = "http"
      ∧ Path (rURL out) = Path (rURL r)
      ∧ RawQuery (rURL out) = RawQuery (rURL r)
      ∧ Method out = Method r
      ∧ Host out = Host r)
    (forwarded (ServeHTTP (newReverseProxy rd bk) w r)).
Proof.
  destruct (rd !! Host r) as [t|] eqn:Hr.
  - rewrite (ServeHTTP_hit _ _ _ t) by done. constructor.
  - destruct (bk !! Host r) as [addr|] eqn:Hb.
    + rewrite (ServeHTTP_proxied _ _ _ addr) by done.
      cbn [forwarded]. repeat constructor. cbn. by rewrite Hb.
    + rewrite ServeHTTP_miss by done. constructor.
Qed.



(** X5: a proxied request is logged unless the last [WriteHeader] call of
    the forwarding primitive carried 200; when the primitive makes no
    such call at all, the line is logged with status 0. *)
Theorem proxy_logged_unless_last_200 `{E : Env} `{ResponseWriter W}
    rp (w : W) r addr :
  redirects rp !! Host r = None →
  backends rp !! Host r = Some addr →
  let o := ServeHTTP rp w r in
  let cs := forward (Director (proxy rp) r) in
  (logged o = [] ↔ last (codes cs) = Some 200)
  ∧ (codes cs = [] →
     logged o = [Method r +:+ " " +:+ Host r +:+ EscapedPath (rURL r) +:+ "?"
                   +:+ RawQuery (rURL r) +:+ " 0"]).
Proof.
  intros Hr Hb o cs. subst o cs.
  rewrite (ServeHTTP_proxied _ _ _ addr) by done.
  cbn [logged]. unfold ReverseProxy_ServeHTTP. cbn [fst].
  rewrite wrapper_status. cbn [wrap status].
  split.
  - destruct (last (codes (forward (Director (proxy rp) r)))) as [c|]; cbn.
    + destruct (decide (c = 200)) as [->|Hne].
      * by rewrite bool_decide_eq_false_2 by (by intros ?).
      * rewrite bool_decide_eq_true_2 by done.
        split; [done|]. intros Heq. by injection Heq.
    + by split.
  - intros Hnone. rewrite Hnone. cbn.
    unfold log_line. cbn zeta. by rewrite !string_app_assoc.
Qed.

Lemma proxy_logged_unless_last_200_witness :
  let r := mkRequest "GET" "www.my.domain" (origin_form "/implicit" "q") in
  (redirects sample_rp !! Host r = None
   ∧ backends sample_rp !! Host r = Some "localhost:12345")
  ∧ let o := @ServeHTTP sampleEnv _ _ sample_rp newResponse r in
    let cs := sample_forward (Director (proxy sample_rp) r) in
    (logged o = [] ↔ last (codes cs) = Some 200)
    ∧ (codes cs = [] → logged o = ["GET www.my.domain/implicit?q 0"]).
Proof.
  split; [by vm_compute|].
  apply (@proxy_logged_unless_last_200 sampleEnv _ _ sample_rp newResponse
           (mkRequest "GET" "www.my.domain" (origin_form "/implicit" "q"))
           "localhost:12345"); by vm_compute.
Defined.

(** X6: when the forwarding primitive sets headers, then calls
    [WriteHeader] once with a final status code, from 200 to 999, and
    makes no such call again, on a writer that has sent nothing, the
    status the wrapper holds is the status the client was sent. *)
Theorem captured_matches_sent (w : response) (pre post : list call) (code : Z) :
  (200 ≤ code ≤ 999)%Z →
  sent w = None →
  forallb is_SetHeader pre = true →
  codes post = [] →
  let respW := perform_all (pre ++ CallWriteHeader code :: post) (wrap w) in
  status respW = code ∧ sent_status (inner respW) = Some code.
Proof.
  intros _ Hs Hpre Hpost respW. subst respW. split.
  - rewrite wrapper_status.
    assert (Hc : codes (pre ++ CallWriteHeader code :: post)
                 = (codes pre ++ [code])%list).
    { unfold codes. rewrite omap_app. cbn. fold (codes post).
      by rewrite Hpost. }
    by rewrite Hc, last_snoc.
  - rewrite wrapper_inner. cbn [wrap inner].
    rewrite perform_all_app, perform_all_cons.
    assert (Hnone : sent (perform_all pre w) = None)
      by (by rewrite SetHeaders_send_nothing).
    unfold sent_status.
    rewrite (sent_stable post _ (code, header (perform_all pre w))); [done|].
    cbn. unfold response_WriteHeader. by rewrite Hnone.
Qed.

Lemma captured_matches_sent_witness :
  let pre := [CallSetHeader "Content-Type" "text/plain"] in
  let post := [CallWrite "not here"] in
  ((200 ≤ 404 ≤ 999)%Z ∧ sent newResponse = None
   ∧ forallb is_SetHeader pre = true ∧ codes post = [])
  ∧ let respW := perform_all (pre ++ CallWriteHeader 404 :: post) (wrap newResponse) in
    status respW = 404 ∧ sent_status (inner respW) = Some 404.
Proof.
  split; [by vm_compute|].
  apply (captured_matches_sent newResponse
           [CallSetHeader "Content-Type" "text/plain"] [CallWrite "not here"] 404);
    [lia|by vm_compute..].
Defined.

(** X7: for a host of the redirect table the handler does the same
    whatever its backend table and its forwarding proxy are: the backend
    entry of such a host is never read. *)
Theorem redirect_ignores_backends `{E : Env} `{ResponseWriter W}
    (rd bk1 bk2 : gmap string string) (p1 p2 : ReverseProxy) (w : W) r :
  is_Some (rd !! Host r) →
  ServeHTTP (mkReverseProxyHandler rd bk1 p1) w r
  = ServeHTTP (mkReverseProxyHandler rd bk2 p2) w r.
Proof.
  intros [t Ht].
  by rewrite (ServeHTTP_hit (mkReverseProxyHandler rd bk1 p1) _ _ t),
             (ServeHTTP_hit (mkReverseProxyHandler rd bk2 p2) _ _ t).
Qed.

Lemma redirect_ignores_backends_witness :
  let r := mkRequest "GET" "my.domain" (origin_form "/a" EmptyString) in
  is_Some (main_redirects !! Host r)
  ∧ @ServeHTTP sampleEnv _ _
      (mkReverseProxyHandler main_redirects main_backends
         (mkReverseProxy (director main_backends))) newResponse r
    = @ServeHTTP sampleEnv _ _
        (mkReverseProxyHandler main_redirects ∅ (mkReverseProxy (λ q, q)))
        newResponse r.
Proof.
  split; [by vm_compute; eexists|].
  apply (@redirect_ignores_backends sampleEnv _ _ main_redirects main_backends ∅
           (mkReverseProxy (director main_backends)) (mkReverseProxy (λ q, q))
           newResponse (mkRequest "GET" "my.domain" (origin_form "/a" EmptyString))).
  by vm_compute; eexists.
Defined.

(** X8: on a hit, [redirectByHost] overwrites whatever host the request's
    URL had: the result does not depend on it, so a request that was
    redirected and is handed in again gets the same answer and is left as
    it was. *)
Theorem redirectByHost_ignores_URL_host `{E : Env} `{ResponseWriter W}
    hostMap (w : W) r t (h : string) :
  hostMap !! Host r = Some t →
  redirectByHost hostMap w (with_URL (set_Host h (rURL r)) r)
  = redirectByHost hostMap w r
  ∧ (redirectByHost hostMap w (redirectByHost hostMap w r).2).2
    = (redirectByHost hostMap w r).2.
Proof.
  intros Hm. split.
  - by rewrite (redirectByHost_Some _ _ _ t), (redirectByHost_Some _ _ r t).
  - rewrite (redirectByHost_Some _ _ r t) by done. cbn [snd].
    by rewrite (redirectByHost_Some _ _ _ t).
Qed.

Lemma redirectByHost_ignores_URL_host_witness :
  let r := mkRequest "GET" "my.domain" (origin_form "/a" "b=1") in
  main_redirects !! Host r = Some "www.my.domain"
  ∧ (@redirectByHost sampleEnv _ _ main_redirects newResponse
       (with_URL (set_Host "elsewhere" (rURL r)) r)
     = @redirectByHost sampleEnv _ _ main_redirects newResponse r
     ∧ (@redirectByHost sampleEnv _ _ main_redirects newResponse
          (@redirectByHost sampleEnv _ _ main_redirects newResponse r).2).2
       = (@redirectByHost sampleEnv _ _ main_redirects newResponse r).2).
Proof.
  split; [by vm_compute|].
  apply (@redirectByHost_ignores_URL_host sampleEnv _ _ main_redirects newResponse
           (mkRequest "GET" "my.domain" (origin_form "/a" "b=1"))
           "www.my.domain" "elsewhere"); by vm_compute.
Defined.

(** X9: the handler built by [newReverseProxy] is the three-way router:
    on a writer that has sent nothing, what it does shows a redirect to
    the mapped host for a key of the redirect table, else a request sent
    to the mapped address for a key of the backend table, else neither. *)
Theorem handler_refines_router `{E : Env} (rd bk : gmap string string) (r : Request) :
  dispatched (ServeHTTP (newReverseProxy rd bk) newResponse r)
  = match rd !! Host r with
    | Some target => Redirect target
    | None =>
        match bk !! Host r with
        | Some addr => Proxy addr
        | None => Unknown
        end
    end.
Proof. rewrite dispatched_route. reflexivity. Qed.

(** X10: the text [html.EscapeString] puts into the href of the note has
    no double quote, no apostrophe and no angle bracket, so the location
    cannot end the attribute or the tag. *)
Theorem EscapeString_no_markup (s : string) :
  Forall (λ c, c ≠ "034"%char ∧ c ≠ "039"%char ∧ c ≠ "060"%char ∧ c ≠ "062"%char)
         (chars (EscapeString s)).
Proof.
  induction s as [|a s IH]; [constructor|].
  cbn [EscapeString]. rewrite chars_app. apply Forall_app. split; [|done].
  unfold escape_char.
  destruct (Ascii.eqb a "038"); [by repeat constructor|].
  destruct (Ascii.eqb a "039") eqn:H1; [by repeat constructor|].
  destruct (Ascii.eqb a "060") eqn:H2; [by repeat constructor|].
  destruct (Ascii.eqb a "062") eqn:H3; [by repeat constructor|].
  destruct (Ascii.eqb a "034") eqn:H4; [by repeat constructor|].
  apply Ascii.eqb_neq in H1, H2, H3, H4. by repeat constructor.
Qed.
